(** * recordsteps: the two popup verification scripts

    A shallow embedding of

      - [jules-scratch/verification/verify_extension.py]
        (function [test_extension_popup] and the module's top level), and
      - [verification_popup_updated.py]
        (function [verify_popup] and the module's top level)

    as programs in a small state-and-exception monad.  The scripts are
    straight-line sequences of calls into the Playwright automation
    library; the library and the browser behind it are modelled by a
    [World] that fixes the outcome of every call, and each run records the
    calls it issues, with their outcomes, in a trace. *)

From Stdlib Require Import String Ascii List Bool Arith Lia Sorted.
Import ListNotations.
Local Open Scope list_scope.
Local Open Scope string_scope.

(** ** Python values used by the scripts *)

(** The exceptions that can leave a call of the scripts. *)
Inductive exn : Type :=
| IndexError        (* list index out of range *)
| TimeoutError      (* a library wait ran into its timeout *)
| AssertionError    (* an [expect(...)] assertion did not hold *)
| PlaywrightError   (* any other error of the automation library *)
| FileNotFoundError (* [os.getcwd()] in a working directory that is gone *)
| UnicodeEncodeError (* [print] of a line the encoding of stdout cannot take *)
| BrokenPipeError.  (* [print] to a stdout whose reader is gone *)

(** [s.split(sep)] for a one-character separator: every occurrence of
    [sep] cuts, empty pieces are kept, and a string without [sep] gives the
    one-element list.  The result is never empty ([split_not_nil] below),
    so the [[]] case of the inner match is never taken. *)
Fixpoint split (sep : ascii) (s : string) : list string :=
  match s with
  | EmptyString => [EmptyString]
  | String c s' =>
      if Ascii.eqb c sep then EmptyString :: split sep s'
      else match split sep s' with
           | [] => [String c EmptyString]
           | piece :: pieces => String c piece :: pieces
           end
  end.

(** ** The page as the library sees it *)

Record Element : Type := mkElement {
  tag : string;               (* element name, e.g. h2, button, select *)
  elem_id : option string;    (* the id attribute, when present *)
  text : string;              (* the text the library reads from it, whitespace normalised *)
  visible : bool              (* whether the library finds it visible *)
}.

Definition Dom : Type := list Element.

(** The selectors of the scripts are a tag name ([h2]) or [#] followed by
    an id ([#startBtn], [#loggingLevel], [#loggingDescription]). *)
Definition matches (selector : string) (e : Element) : bool :=
  match selector with
  | String "#" ident =>
      match elem_id e with
      | Some i => String.eqb i ident
      | None => false
      end
  | _ => String.eqb (tag e) selector
  end.

Definition query (selector : string) (dom : Dom) : list Element :=
  filter (matches selector) dom.

(** ** The world a script runs in *)

(** A service worker as the library hands it out; the scripts read its
    [url] only. *)
Record Worker : Type := mkWorker { url : string }.

(** A [Worker] object defines neither [__bool__] nor [__len__], so Python
    finds it true in [if not service_worker]. *)
Definition truthy (_ : Worker) : bool := true.

(** What the automation library and the browser do in one run. *)
Record Browser : Type := mkBrowser {
  playwright_starts : bool;            (* [sync_playwright()] can be entered *)
  browser_launches : bool;             (* [launch] / [launch_persistent_context] returns *)
  service_workers : list Worker;       (* [context.service_workers] when the script reads it *)
  serviceworker_event : option Worker; (* what [wait_for_event("serviceworker")] delivers; [None] is its timeout *)
  new_page_ok : bool;                  (* [new_page()] returns *)
  render : string -> option Dom;       (* the page [goto(url)] ends on, as it settles within the library's timeout; [None] when navigation fails *)
  screenshot_ok : bool;                (* [screenshot(path=...)] returns *)
  close_ok : bool                      (* [close()] returns *)
}.

(** The process environment together with the browser. *)
Record World : Type := mkWorld {
  cwd : string;                        (* the working directory the process was started in *)
  argv : list string;                  (* [sys.argv] *)
  environ : list (string * string);    (* [os.environ] *)
  files : list (string * string);      (* files below the working directory, path and contents *)
  browser : Browser;
  cwd_exists : bool;                   (* whether the working directory is still there when it is asked for *)
  stdout_takes : string -> option exn  (* what [print] of a line meets: [None] when the line is written, the exception otherwise; set up outside the scripts (encoding, pipe) *)
}.

(** ** Calls, events and the state of a run *)

Inductive Call : Type :=
| SyncPlaywrightEnter
| SyncPlaywrightExit
| LaunchPersistentContext (user_data_dir : string) (headless : bool)
                          (channel : string) (args : list string)
| Launch (headless : bool)
| ServiceWorkers
| WaitForEvent (event : string)
| NewPage
| Goto (target : string)
| PageLocator (selector : string)
| ExpectToHaveText (selector expected : string)
| ExpectToBeVisible (selector : string)
| WaitForSelector (selector : string)
| Screenshot (path : string)
| ContextClose
| BrowserClose.

Inductive Outcome : Type :=
| Returned
| Raised (e : exn).

Definition Event : Type := (Call * Outcome)%type.

Record State : Type := mkState {
  trace : list Event;        (* the automation calls issued so far, oldest first *)
  stdout : list string;      (* the lines printed so far, oldest first *)
  written : list string;     (* the paths the script has had files written to, oldest first *)
  page_dom : Dom;            (* the document of the one page the script holds *)
  temp_dirs : nat            (* the temporary profile directories made for launched browsers *)
}.

Definition init : State :=
  {| trace := []; stdout := []; written := []; page_dom := []; temp_dirs := 0 |}.

Definition log (c : Call) (o : Outcome) (s : State) : State :=
  {| trace := (trace s ++ [(c, o)])%list; stdout := stdout s;
     written := written s; page_dom := page_dom s; temp_dirs := temp_dirs s |}.

Definition set_dom (d : Dom) (s : State) : State :=
  {| trace := trace s; stdout := stdout s;
     written := written s; page_dom := d; temp_dirs := temp_dirs s |}.

Definition write_file (path : string) (s : State) : State :=
  {| trace := trace s; stdout := stdout s;
     written := (written s ++ [path])%list; page_dom := page_dom s;
     temp_dirs := temp_dirs s |}.

Definition put_line (line : string) (s : State) : State :=
  {| trace := trace s; stdout := (stdout s ++ [line])%list;
     written := written s; page_dom := page_dom s; temp_dirs := temp_dirs s |}.

Definition make_temp_dir (s : State) : State :=
  {| trace := trace s; stdout := stdout s;
     written := written s; page_dom := page_dom s;
     temp_dirs := S (temp_dirs s) |}.

(** ** The monad of the scripts: state, and exceptions that keep the state *)

Inductive Result (A : Type) : Type :=
| Ok (a : A)
| Raise (e : exn).
Arguments Ok {A} a.
Arguments Raise {A} e.

Definition M (A : Type) : Type := State -> Result A * State.

Definition ret {A} (a : A) : M A := fun s => (Ok a, s).

Definition raise {A} (e : exn) : M A := fun s => (Raise e, s).

Definition bind {A B} (m : M A) (k : A -> M B) : M B :=
  fun s =>
    match m s with
    | (Ok a, s') => k a s'
    | (Raise e, s') => (Raise e, s')
    end.

Notation "x <- m ;; k" := (bind m (fun x => k))
  (at level 61, m at next level, right associativity).
Notation "m ;;; k" := (bind m (fun _ => k))
  (at level 61, right associativity).

(** A library call that returns [a] or raises [e], by [ok]; either way the
    call is recorded. *)
Definition call {A} (c : Call) (ok : bool) (a : A) (e : exn) : M A :=
  fun s => if ok then (Ok a, log c Returned s) else (Raise e, log c (Raised e) s).

(** [print(line)]: the line goes to stdout, or stdout refuses it and the
    exception leaves [print]. *)
Definition print (w : World) (line : string) : M unit :=
  fun s =>
    match stdout_takes w line with
    | None => (Ok tt, put_line line s)
    | Some e => (Raise e, s)
    end.

(** [os.getcwd()]: absolute and normalised; [FileNotFoundError] when the
    directory has been removed. *)
Definition getcwd (w : World) : M string :=
  fun s => if cwd_exists w then (Ok (cwd w), s) else (Raise FileNotFoundError, s).

(** [os.path.abspath(".")]: for a relative path it asks [os.getcwd()] and
    normalises, which gives the working directory itself. *)
Definition abspath_dot (w : World) : M string := getcwd w.

(** [l[i]] on a Python list. *)
Definition index {A} (l : list A) (i : nat) : M A :=
  match nth_error l i with
  | Some a => ret a
  | None => raise IndexError
  end.

(** [with sync_playwright() as p: body].  When the manager is entered its
    exit runs however the body ends, and it does not swallow the body's
    exception. *)
Definition with_sync_playwright {A} (w : World) (body : M A) : M A :=
  fun s =>
    if playwright_starts (browser w) then
      match body (log SyncPlaywrightEnter Returned s) with
      | (r, s') => (r, log SyncPlaywrightExit Returned s')
      end
    else (Raise PlaywrightError, log SyncPlaywrightEnter (Raised PlaywrightError) s).

(** ** The automation library, as far as the scripts use it *)

Module Playwright.

(** [p.chromium.launch_persistent_context(user_data_dir, headless=...,
    channel=..., args=...)].
    With the empty string as [user_data_dir] the library makes a
    temporary directory for the profile (the comment of source line 11). *)
Definition launch_persistent_context (w : World) (user_data_dir : string)
    (headless : bool) (channel : string) (args : list string) : M unit :=
  call (LaunchPersistentContext user_data_dir headless channel args)
       (browser_launches (browser w)) tt PlaywrightError ;;;
  (fun s => (Ok tt, if String.eqb user_data_dir "" then make_temp_dir s else s)).

(** [p.chromium.launch(headless=...)]: the browser of a plain launch gets
    a temporary profile directory as well. *)
Definition launch (w : World) (headless : bool) : M unit :=
  call (Launch headless) (browser_launches (browser w)) tt PlaywrightError ;;;
  (fun s => (Ok tt, make_temp_dir s)).

(** The property [context.service_workers]: the workers registered at
    the moment it is read. *)
Definition context_service_workers (w : World) : M (list Worker) :=
  call ServiceWorkers true (service_workers (browser w)) PlaywrightError.

(** [context.wait_for_event(event)]: blocks until the event arrives or
    the library's timeout elapses. *)
Definition wait_for_event (w : World) (event : string) : M Worker :=
  match (if String.eqb event "serviceworker"
         then serviceworker_event (browser w) else None) with
  | Some sw => call (WaitForEvent event) true sw TimeoutError
  | None => call (WaitForEvent event) false (mkWorker "") TimeoutError
  end.

(** [context.new_page()] / [browser.new_page()]: a blank page. *)
Definition new_page (w : World) : M unit :=
  call NewPage (new_page_ok (browser w)) tt PlaywrightError ;;;
  (fun s => (Ok tt, set_dom [] s)).

(** [page.goto(url)]. *)
Definition goto (w : World) (target : string) : M unit :=
  match render (browser w) target with
  | Some d =>
      call (Goto target) true tt PlaywrightError ;;;
      (fun s => (Ok tt, set_dom d s))
  | None => call (Goto target) false tt PlaywrightError
  end.

(** [page.locator(selector)]: a handle only, nothing is looked up yet. *)
Definition locator (selector : string) : M string :=
  call (PageLocator selector) true selector PlaywrightError.

(** What an assertion on a locator finds: locators are strict, so more
    than one match is an error of the library; no match leaves the
    assertion waiting until it gives up. *)
Definition expect_on (c : Call) (selector : string)
    (holds : Element -> bool) : M unit :=
  fun s =>
    match query selector (page_dom s) with
    | [] => call c false tt AssertionError s
    | [e] => call c (holds e) tt AssertionError s
    | _ :: _ :: _ => call c false tt PlaywrightError s
    end.

(** [expect(locator).to_have_text(expected)] with a string: the whole
    text has to be [expected]. *)
Definition expect_to_have_text (selector expected : string) : M unit :=
  expect_on (ExpectToHaveText selector expected) selector
            (fun e => String.eqb (text e) expected).

(** [expect(locator).to_be_visible()]. *)
Definition expect_to_be_visible (selector : string) : M unit :=
  expect_on (ExpectToBeVisible selector) selector visible.

(** [page.wait_for_selector(selector)], default state [visible]: waits
    for the first match to be visible. *)
Definition wait_for_selector (selector : string) : M unit :=
  fun s =>
    match query selector (page_dom s) with
    | e :: _ => call (WaitForSelector selector) (visible e) tt TimeoutError s
    | [] => call (WaitForSelector selector) false tt TimeoutError s
    end.

(** [page.screenshot(path=...)]: writes the PNG to [path]. *)
Definition screenshot (w : World) (path : string) : M unit :=
  call (Screenshot path) (screenshot_ok (browser w)) tt PlaywrightError ;;;
  (fun s => (Ok tt, write_file path s)).

(** [context.close()]. *)
Definition context_close (w : World) : M unit :=
  call ContextClose (close_ok (browser w)) tt PlaywrightError.

(** [browser.close()]. *)
Definition browser_close (w : World) : M unit :=
  call BrowserClose (close_ok (browser w)) tt PlaywrightError.

End Playwright.

Import Playwright.

(** ** jules-scratch/verification/verify_extension.py *)

Definition test_extension_popup (w : World) : M unit :=
  extension_path <- abspath_dot w ;;
  with_sync_playwright w (
    launch_persistent_context w "" true "chromium"
      [ "--disable-extensions-except=" ++ extension_path;
        "--load-extension=" ++ extension_path ] ;;;
    workers <- context_service_workers w ;;
    service_worker <- index workers 0 ;;
    service_worker <- (if negb (truthy service_worker)
                       then wait_for_event w "serviceworker"
                       else ret service_worker) ;;
    extension_id <- index (split "/" (url service_worker)) 2 ;;
    new_page w ;;;
    goto w ("chrome-extension://" ++ extension_id ++ "/popup.html") ;;;
    heading <- locator "h2" ;;
    expect_to_have_text heading "Click Recorder" ;;;
    start_button <- locator "#startBtn" ;;
    expect_to_be_visible start_button ;;;
    expect_to_have_text start_button "Start Recording" ;;;
    screenshot w "jules-scratch/verification/popup.png" ;;;
    context_close w).

(** The exit status of the interpreter: 0 when the module's code runs to
    its end, 1 when an exception leaves it. *)
Definition exit_status {A} (r : Result A) : nat :=
  match r with
  | Ok _ => 0
  | Raise _ => 1
  end.

(** The module run as a script: the call of [test_extension_popup] and the
    final [print]. *)
Definition verify_extension_main (w : World) : M unit :=
  test_extension_popup w ;;;
  print w "Verification script executed successfully.".

(** ** verification_popup_updated.py *)

Definition verify_popup (w : World) : M unit :=
  with_sync_playwright w (
    launch w true ;;;
    new_page w ;;;
    cwd <- getcwd w ;;
    let popup_path := "file://" ++ cwd ++ "/popup.html" in
    print w ("Loading " ++ popup_path) ;;;
    goto w popup_path ;;;
    wait_for_selector "#loggingLevel" ;;;
    wait_for_selector "#loggingDescription" ;;;
    let screenshot_path := "verification_popup_updated.png" in
    screenshot w screenshot_path ;;;
    print w ("Screenshot saved to " ++ screenshot_path) ;;;
    browser_close w).

(** The module run as a script, where [__name__] is ["__main__"]. *)
Definition verification_popup_updated_main (w : World) : M unit :=
  verify_popup w.

(** A run of a script from a fresh process. *)
Definition run {A} (m : M A) : Result A * State := m init.

(** ** The two scripts side by side *)

Inductive Script : Type :=
| VerifyExtension             (* jules-scratch/verification/verify_extension.py *)
| VerificationPopupUpdated.   (* verification_popup_updated.py *)

Definition script_function (sc : Script) : World -> M unit :=
  match sc with
  | VerifyExtension => test_extension_popup
  | VerificationPopupUpdated => verify_popup
  end.

Definition script_main (sc : Script) : World -> M unit :=
  match sc with
  | VerifyExtension => verify_extension_main
  | VerificationPopupUpdated => verification_popup_updated_main
  end.

(** The explicit teardown call of each script. *)
Definition teardown (sc : Script) : Call :=
  match sc with
  | VerifyExtension => ContextClose
  | VerificationPopupUpdated => BrowserClose
  end.

(** The literal each script passes as [path=] to [screenshot]. *)
Definition screenshot_path (sc : Script) : string :=
  match sc with
  | VerifyExtension => "jules-scratch/verification/popup.png"
  | VerificationPopupUpdated => "verification_popup_updated.png"
  end.

(** ** Reading traces *)

Definition calls (t : list Event) : list Call := map fst t.

Definition returned (e : Event) : Prop := snd e = Returned.

Definition is_teardown (c : Call) : bool :=
  match c with
  | ContextClose | BrowserClose => true
  | _ => false
  end.

Definition is_launch (c : Call) : bool :=
  match c with
  | LaunchPersistentContext _ _ _ _ | Launch _ => true
  | _ => false
  end.

(** The paths of the screenshots that the [screenshot] calls of a trace
    have taken, and the number of its launches that have returned. *)
Fixpoint screenshots_taken (t : list Event) : list string :=
  match t with
  | [] => []
  | (Screenshot p, Returned) :: t' => p :: screenshots_taken t'
  | _ :: t' => screenshots_taken t'
  end.

Fixpoint launches_done (t : list Event) : nat :=
  match t with
  | [] => 0
  | (c, Returned) :: t' =>
      (if is_launch c then 1 else 0) + launches_done t'
  | _ :: t' => launches_done t'
  end.

Definition is_assertion (c : Call) : bool :=
  match c with
  | ExpectToHaveText _ _ | ExpectToBeVisible _ => true
  | _ => false
  end.

(** The calls that look at the text of an element. *)
Definition is_text_check (c : Call) : bool :=
  match c with
  | ExpectToHaveText _ _ => true
  | _ => false
  end.

(** The calls that look at the page: locating, waiting, asserting. *)
Definition is_inspection (c : Call) : bool :=
  match c with
  | PageLocator _ | WaitForSelector _
  | ExpectToHaveText _ _ | ExpectToBeVisible _ => true
  | _ => false
  end.

(** [a] is recorded in [t] before [b]. *)
Definition precedes (t : list Event) (a b : Event) : Prop :=
  exists i j, i < j /\ nth_error t i = Some a /\ nth_error t j = Some b.

(** A trace in which a call that raised ends the run: nothing follows it
    but the exit of the [with] block. *)
Inductive halts_at_failure : list Event -> Prop :=
| haf_done : halts_at_failure []
| haf_returned (c : Call) (t : list Event) :
    halts_at_failure t -> halts_at_failure ((c, Returned) :: t)
| haf_raised (c : Call) (e : exn) :
    halts_at_failure [(c, Raised e)]
| haf_raised_exit (c : Call) (e : exn) :
    halts_at_failure [(c, Raised e); (SyncPlaywrightExit, Returned)].

(** The six steps of a run as the specification lists them: 0 start the
    session, 1 navigate, 2 wait for or locate an element, 3 assert on an
    element, 4 take the screenshot, 5 tear down. *)
Definition step_of (c : Call) : nat :=
  match c with
  | SyncPlaywrightEnter | LaunchPersistentContext _ _ _ _ | Launch _
  | ServiceWorkers | WaitForEvent _ | NewPage => 0
  | Goto _ => 1
  | PageLocator _ | WaitForSelector _ => 2
  | ExpectToHaveText _ _ | ExpectToBeVisible _ => 3
  | Screenshot _ => 4
  | ContextClose | BrowserClose | SyncPlaywrightExit => 5
  end.

(** The phases of a run, in order: 0 start the session, 1 navigate to the
    target page, 2 look at the elements, 3 take the screenshot, 4 tear
    down.  Phase 2 holds the steps 2 and 3 of [step_of] together, because
    the scripts take the elements one after the other: an element is
    located or waited for, asserted on, and then the next is located. *)
Definition phase_of (c : Call) : nat :=
  match c with
  | SyncPlaywrightEnter | LaunchPersistentContext _ _ _ _ | Launch _
  | ServiceWorkers | WaitForEvent _ | NewPage => 0
  | Goto _ => 1
  | PageLocator _ | WaitForSelector _
  | ExpectToHaveText _ _ | ExpectToBeVisible _ => 2
  | Screenshot _ => 3
  | ContextClose | BrowserClose | SyncPlaywrightExit => 4
  end.

(** The selector a call looks up, if any. *)
Definition selector_of (c : Call) : option string :=
  match c with
  | PageLocator sel | WaitForSelector sel
  | ExpectToHaveText sel _ | ExpectToBeVisible sel => Some sel
  | _ => None
  end.

(** The calls of a run of each script that nothing stops, in the order of
    the source; [target] is the address the script navigates to. *)
Definition plan (sc : Script) (w : World) (target : string) : list Call :=
  match sc with
  | VerifyExtension =>
      [ SyncPlaywrightEnter;
        LaunchPersistentContext "" true "chromium"
          [ "--disable-extensions-except=" ++ cwd w;
            "--load-extension=" ++ cwd w ];
        ServiceWorkers;
        NewPage;
        Goto target;
        PageLocator "h2";
        ExpectToHaveText "h2" "Click Recorder";
        PageLocator "#startBtn";
        ExpectToBeVisible "#startBtn";
        ExpectToHaveText "#startBtn" "Start Recording";
        Screenshot "jules-scratch/verification/popup.png";
        ContextClose ]
  | VerificationPopupUpdated =>
      [ SyncPlaywrightEnter;
        Launch true;
        NewPage;
        Goto target;
        WaitForSelector "#loggingLevel";
        WaitForSelector "#loggingDescription";
        Screenshot "verification_popup_updated.png";
        BrowserClose ]
  end.

(** ** Changing the texts of a page, and nothing else *)

Definition relabel_element (f : Element -> string) (e : Element) : Element :=
  {| tag := tag e; elem_id := elem_id e; text := f e; visible := visible e |}.

Definition relabel_browser (f : Element -> string) (b : Browser) : Browser :=
  {| playwright_starts := playwright_starts b;
     browser_launches := browser_launches b;
     service_workers := service_workers b;
     serviceworker_event := serviceworker_event b;
     new_page_ok := new_page_ok b;
     render := fun u => option_map (map (relabel_element f)) (render b u);
     screenshot_ok := screenshot_ok b;
     close_ok := close_ok b |}.

Definition relabel_world (f : Element -> string) (w : World) : World :=
  {| cwd := cwd w; argv := argv w; environ := environ w; files := files w;
     browser := relabel_browser f (browser w);
     cwd_exists := cwd_exists w; stdout_takes := stdout_takes w |}.

(** Whether a string is free of the character [c]. *)
Fixpoint free_of (c : ascii) (s : string) : bool :=
  match s with
  | EmptyString => true
  | String a s' => negb (Ascii.eqb a c) && free_of c s'
  end.

(** ** Worlds to run the scripts on *)

(** A world whose working directory is there and whose stdout takes every
    line. *)
Definition plain_world (dir : string) (args : list string)
    (env : list (string * string)) (fs : list (string * string))
    (b : Browser) : World :=
  mkWorld dir args env fs b true (fun _ => None).


Module Examples.

Definition popup_dom : Dom :=
  [ mkElement "h2" None "Click Recorder" true;
    mkElement "button" (Some "startBtn") "Start Recording" true;
    mkElement "select" (Some "loggingLevel") "Standard" true;
    mkElement "p" (Some "loggingDescription") "Logs clicks" true ].

Definition the_worker : Worker :=
  mkWorker "chrome-extension://abcdefghijklmnop/background.js".

Definition renders (d : Dom) (u : string) : option Dom :=
  if String.eqb u "chrome-extension://abcdefghijklmnop/popup.html" then Some d
  else if String.eqb u "file:///work/popup.html" then Some d
  else None.

(** Everything works and the popup is the expected one. *)
Definition good_browser : Browser :=
  mkBrowser true true [the_worker] None true (renders popup_dom) true true.

Definition good_world : World :=
  plain_world "/work" ["script.py"] [] [("popup.html", "<html>")] good_browser.

(** The same directory and browser, started with other arguments, another
    environment and other files around. *)
Definition other_process_world : World :=
  plain_world "/work" ["script.py"; "--headed"] [("HOME", "/root")] [] good_browser.

(** The worker is not registered yet when the script reads the list; it
    would arrive if the script waited for it. *)
Definition late_worker_browser : Browser :=
  mkBrowser true true [] (Some the_worker) true (renders popup_dom) true true.

Definition late_worker_world : World :=
  plain_world "/work" ["script.py"] [] [("popup.html", "<html>")] late_worker_browser.

(** The popup has another heading. *)
Definition other_heading_dom : Dom :=
  [ mkElement "h2" None "Step Recorder" true;
    mkElement "button" (Some "startBtn") "Start Recording" true ].

Definition other_heading_world : World :=
  plain_world "/work" ["script.py"] [] [("popup.html", "<html>")]
    (mkBrowser true true [the_worker] None true (renders other_heading_dom) true true).

(** The local page lacks the description element. *)
Definition no_description_dom : Dom :=
  [ mkElement "select" (Some "loggingLevel") "Standard" true ].

Definition no_description_world : World :=
  plain_world "/work" ["script.py"] [] [("popup.html", "<html>")]
    (mkBrowser true true [the_worker] None true (renders no_description_dom) true true).

(** The dropdown carries a text of no meaning. *)
Definition mislabelled_dom : Dom :=
  [ mkElement "select" (Some "loggingLevel") "???" true;
    mkElement "p" (Some "loggingDescription") "" true ].

Definition mislabelled_world : World :=
  plain_world "/work" ["script.py"] [] [("popup.html", "<html>")]
    (mkBrowser true true [the_worker] None true (renders mislabelled_dom) true true).

End Examples.

(** ** More to state properties with *)

(** How often the character [c] occurs in [s]. *)
Fixpoint occurrences (c : ascii) (s : string) : nat :=
  match s with
  | EmptyString => 0
  | String a s' => (if Ascii.eqb a c then 1 else 0) + occurrences c s'
  end.

(** Changing what is visible on a page, the start button apart. *)
Definition reveal_element (f : Element -> bool) (e : Element) : Element :=
  if matches "#startBtn" e then e
  else {| tag := tag e; elem_id := elem_id e; text := text e; visible := f e |}.

Definition reveal_browser (f : Element -> bool) (b : Browser) : Browser :=
  {| playwright_starts := playwright_starts b;
     browser_launches := browser_launches b;
     service_workers := service_workers b;
     serviceworker_event := serviceworker_event b;
     new_page_ok := new_page_ok b;
     render := fun u => option_map (map (reveal_element f)) (render b u);
     screenshot_ok := screenshot_ok b;
     close_ok := close_ok b |}.

Definition reveal_world (f : Element -> bool) (w : World) : World :=
  {| cwd := cwd w; argv := argv w; environ := environ w; files := files w;
     browser := reveal_browser f (browser w);
     cwd_exists := cwd_exists w; stdout_takes := stdout_takes w |}.

(** More worlds to run the scripts on. *)
Module Cases.

(** Everything works but the final [close()]. *)
Definition close_fails_world : World :=
  plain_world "/work" ["script.py"] [] [("popup.html", "<html>")]
    (mkBrowser true true [Examples.the_worker] None true
       (Examples.renders Examples.popup_dom) true false).

(** The page cannot be loaded. *)
Definition no_page_world : World :=
  plain_world "/work" ["script.py"] [] []
    (mkBrowser true true [Examples.the_worker] None true (fun _ => None) true true).

(** The worker reports an address with one slash only. *)
Definition short_url_world : World :=
  plain_world "/work" ["script.py"] [] [("popup.html", "<html>")]
    (mkBrowser true true [mkWorker "about:blank/x"] None true
       (Examples.renders Examples.popup_dom) true true).

(** The working directory has been removed under the process. *)
Definition removed_directory_world : World :=
  mkWorld "/work" ["script.py"] [] [] Examples.good_browser false (fun _ => None).



End Cases.

(** * Properties *)

(** ** Running a script by cases

    A run is decided by the answers of the world, one after the other;
    [run_script] follows the source down every branch. *)

Ltac unfold_script :=
  cbv [run script_function script_main test_extension_popup verify_popup
       verify_extension_main verification_popup_updated_main
       with_sync_playwright bind ret raise call print index
       launch_persistent_context launch context_service_workers
       wait_for_event new_page goto locator expect_on expect_to_have_text
       expect_to_be_visible wait_for_selector screenshot context_close
       browser_close truthy negb abspath_dot getcwd] in *.

Ltac simpl_state :=
  cbn [nth_error fst snd trace stdout written page_dom temp_dirs log
       set_dom write_file put_line make_temp_dir init app String.eqb] in *.

Ltac split_on x :=
  lazymatch x with
  | context [match ?y with _ => _ end] => split_on y
  | nth_error ?l 0 => destruct l eqn:?
  | _ => destruct x eqn:?
  end.

Ltac step :=
  match goal with
  | |- context [match ?x with _ => _ end] => split_on x
  | H : context [match ?x with _ => _ end] |- _ => split_on x
  end; simpl_state.

Ltac run_script := unfold_script; simpl_state; repeat step.

(** The length of the part of the plan a run has gone through. *)
Ltac find_length n :=
  first [ exists n; reflexivity
        | lazymatch n with
          | 13 => fail
          | _ => find_length (S n)
          end ].

(** Equations between lists and between texts, put to use. *)
Ltac tidy :=
  repeat match goal with
         | E : String.eqb _ _ = true |- _ => apply String.eqb_eq in E
         | E : _ :: _ = _ :: _ |- _ => injection E; clear E; intros
         | E : Some _ = Some _ |- _ => injection E; clear E; intros
         end;
  subst.

(** ** [str.split] *)

Section Split.

Variable sep : ascii.

Lemma split_not_nil (s : string) : split sep s <> [].
Proof.
  destruct s as [|c s]; simpl; [discriminate|].
  destruct (Ascii.eqb c sep); [discriminate|].
  destruct (split sep s); discriminate.
Qed.

(** A string free of the separator is its own single piece. *)
Lemma split_free (a : string) :
  free_of sep a = true -> split sep a = [a].
Proof.
  induction a as [|c a IH]; simpl; intros H; [reflexivity|].
  apply andb_prop in H as [Hc Ha].
  apply negb_true_iff in Hc. rewrite Hc, (IH Ha). reflexivity.
Qed.

(** The first separator ends the first piece. *)
Lemma split_cut (a b : string) :
  free_of sep a = true ->
  split sep (a ++ String sep b) = a :: split sep b.
Proof.
  induction a as [|c a IH]; simpl; intros H.
  - rewrite Ascii.eqb_refl. reflexivity.
  - apply andb_prop in H as [Hc Ha].
    apply negb_true_iff in Hc. rewrite Hc, (IH Ha). reflexivity.
Qed.

End Split.

(** Index 2 of a [chrome-extension://] address split on the slash is its
    host. *)
Lemma split_extension_host (host path : string) :
  free_of "/" host = true ->
  path = "" \/ (exists rest, path = String "/" rest) ->
  nth_error (split "/" ("chrome-extension://" ++ host ++ path)) 2 = Some host.
Proof.
  intros Hfree Hpath.
  assert (Hhost : exists tl, split "/" (host ++ path) = host :: tl).
  { destruct Hpath as [-> | [rest ->]].
    - exists []. replace (host ++ "") with host.
      + now apply split_free.
      + clear Hfree. induction host as [|c h IH]; simpl; congruence.
    - eexists. now apply split_cut. }
  destruct Hhost as [tl Htl].
  cbn. rewrite Htl. reflexivity.
Qed.

(** ** Queries do not look at texts *)

Lemma matches_relabel (f : Element -> string) (sel : string) (e : Element) :
  matches sel (relabel_element f e) = matches sel e.
Proof. reflexivity. Qed.

Lemma query_relabel (f : Element -> string) (sel : string) (d : Dom) :
  query sel (map (relabel_element f) d) = map (relabel_element f) (query sel d).
Proof.
  unfold query. induction d as [|e d IH]; simpl; [reflexivity|].
  rewrite matches_relabel. destruct (matches sel e); simpl; congruence.
Qed.

(** What a hit of a query is. *)
Lemma query_hit (sel : string) (d : Dom) (e : Element) :
  In e (query sel d) -> In e d /\ matches sel e = true.
Proof. unfold query. apply filter_In. Qed.

Lemma matches_id (ident : string) (e : Element) :
  matches (String "#" ident) e = true -> elem_id e = Some ident.
Proof.
  simpl. destruct (elem_id e) as [i|]; [|discriminate].
  intros H. apply String.eqb_eq in H. congruence.
Qed.

(** ** The wait for the service worker *)

(** No run of [test_extension_popup] calls [wait_for_event]: the value
    read from the list is a [Worker], which Python finds true. *)
Lemma wait_for_event_never_called (w : World) (ev : string) (o : Outcome) :
  ~ In (WaitForEvent ev, o) (trace (snd (run (test_extension_popup w)))).
Proof.
  run_script; cbn; intuition congruence.
Qed.

(** C1, evaluated on the code.  When the session has started (the working
    directory is there, the library starts, the browser launches) and no
    service worker is registered at the moment the script reads
    [context.service_workers], indexing the empty list raises [IndexError]:
    the run ends there, and [wait_for_event] is not among its calls. *)
Theorem test_extension_popup_without_worker (w : World) :
  cwd_exists w = true ->
  playwright_starts (browser w) = true ->
  browser_launches (browser w) = true ->
  service_workers (browser w) = [] ->
  fst (run (test_extension_popup w)) = Raise IndexError /\
  calls (trace (snd (run (test_extension_popup w)))) =
    [ SyncPlaywrightEnter;
      LaunchPersistentContext "" true "chromium"
        [ "--disable-extensions-except=" ++ cwd w;
          "--load-extension=" ++ cwd w ];
      ServiceWorkers;
      SyncPlaywrightExit ].
Proof.
  intros Hc Hp Hl Hw. unfold_script. rewrite Hc, Hp, Hl, Hw. simpl_state.
  split; reflexivity.
Qed.

Lemma test_extension_popup_without_worker_witness :
  serviceworker_event (browser Examples.late_worker_world) = Some Examples.the_worker /\
  fst (run (test_extension_popup Examples.late_worker_world)) = Raise IndexError /\
  calls (trace (snd (run (test_extension_popup Examples.late_worker_world)))) =
    [ SyncPlaywrightEnter;
      LaunchPersistentContext "" true "chromium"
        [ "--disable-extensions-except=/work"; "--load-extension=/work" ];
      ServiceWorkers;
      SyncPlaywrightExit ].
Proof.
  split; [reflexivity|].
  apply (test_extension_popup_without_worker Examples.late_worker_world);
    reflexivity.
Defined.

(** ** What a completed run of [test_extension_popup] has established *)

(** The page of a completed run: the popup it navigated to, with its one
    heading and its one start button as the assertions found them. *)
Lemma test_extension_popup_completed (w : World) (s : State) :
  run (test_extension_popup w) = (Ok tt, s) ->
  (exists target,
      In (Goto target, Returned) (trace s) /\
      render (browser w) target = Some (page_dom s)) /\
  (exists h,
      query "h2" (page_dom s) = [h] /\ tag h = "h2" /\
      text h = "Click Recorder") /\
  (exists b,
      query "#startBtn" (page_dom s) = [b] /\ elem_id b = Some "startBtn" /\
      visible b = true /\ text b = "Start Recording").
Proof.
  intros H. run_script; try discriminate.
  injection H as <-. simpl_state. tidy.
  match goal with
  | Eh : query "h2" ?d = [?h], Eb : query "#startBtn" ?d = [?b] |- _ =>
      assert (Hh : In h (query "h2" d)) by (rewrite Eh; now left);
      assert (Hb : In b (query "#startBtn" d)) by (rewrite Eb; now left);
      apply query_hit in Hh as [_ Hh]; apply query_hit in Hb as [_ Hb];
      apply matches_id in Hb; apply String.eqb_eq in Hh;
      split; [|split; [exists h; auto|exists b; auto]]
  end.
  eexists. split; [|eassumption]. cbn. tauto.
Qed.

(** C2.  When [test_extension_popup] completes without raising, the page it
    holds is the popup it navigated to, the one [h2] element of that page
    has the text "Click Recorder", the one element with id [startBtn] is
    visible and has the text "Start Recording", and the assertions the run
    has made are these three, in this order, and no others. *)
Theorem test_extension_popup_asserts (w : World) (s : State) :
  run (test_extension_popup w) = (Ok tt, s) ->
  (exists target,
      In (Goto target, Returned) (trace s) /\
      render (browser w) target = Some (page_dom s)) /\
  (exists h,
      query "h2" (page_dom s) = [h] /\ tag h = "h2" /\
      text h = "Click Recorder") /\
  (exists b,
      query "#startBtn" (page_dom s) = [b] /\ elem_id b = Some "startBtn" /\
      visible b = true /\ text b = "Start Recording") /\
  filter is_assertion (calls (trace s)) =
    [ ExpectToHaveText "h2" "Click Recorder";
      ExpectToBeVisible "#startBtn";
      ExpectToHaveText "#startBtn" "Start Recording" ].
Proof.
  intros H.
  destruct (test_extension_popup_completed w s H) as (Hpage & Hh & Hb).
  repeat (split; [assumption|]).
  clear Hpage Hh Hb. run_script; try discriminate.
  injection H as <-. reflexivity.
Qed.

Lemma test_extension_popup_asserts_witness :
  exists s,
    run (test_extension_popup Examples.good_world) = (Ok tt, s) /\
    query "h2" (page_dom s) = [mkElement "h2" None "Click Recorder" true] /\
    filter is_assertion (calls (trace s)) =
      [ ExpectToHaveText "h2" "Click Recorder";
        ExpectToBeVisible "#startBtn";
        ExpectToHaveText "#startBtn" "Start Recording" ].
Proof.
  eexists. split; [reflexivity|].
  split; [reflexivity|].
  apply (test_extension_popup_asserts Examples.good_world). reflexivity.
Defined.

(** ** The address of the popup *)

(** Where [test_extension_popup] navigates to, from what it read. *)
Lemma test_extension_popup_goto (w : World) (target : string) (o : Outcome) :
  In (Goto target, o) (trace (snd (run (test_extension_popup w)))) ->
  exists service_worker others extension_id,
    service_workers (browser w) = service_worker :: others /\
    nth_error (split "/" (url service_worker)) 2 = Some extension_id /\
    target = "chrome-extension://" ++ extension_id ++ "/popup.html".
Proof.
  intros H. run_script; cbn in H;
    repeat (destruct H as [H|H]; try discriminate); try contradiction.
  all: injection H as <- _; subst.
  all: match goal with
       | Es : split _ (url ?sw) = _ :: _ :: ?ext :: _ |- exists _ _ _, ?l = _ /\ _ =>
           exists sw, (tl l), ext; split; [reflexivity|];
           split; [rewrite Es; reflexivity|reflexivity]
       end.
Qed.

(** C10.  Whenever [test_extension_popup] navigates, the list of service
    workers it read has a first entry, the extension id is the piece at
    index 2 of that worker's address split on the slash, and the address
    navigated to is "chrome-extension://", the id, "/popup.html"; when the
    worker's address is a [chrome-extension://] address, the id is its
    host. *)
Theorem test_extension_popup_target (w : World) (target : string) (o : Outcome) :
  In (Goto target, o) (trace (snd (run (test_extension_popup w)))) ->
  exists service_worker others extension_id,
    service_workers (browser w) = service_worker :: others /\
    nth_error (split "/" (url service_worker)) 2 = Some extension_id /\
    target = "chrome-extension://" ++ extension_id ++ "/popup.html" /\
    (forall host path,
        url service_worker = "chrome-extension://" ++ host ++ path ->
        free_of "/" host = true ->
        path = "" \/ (exists rest, path = String "/" rest) ->
        extension_id = host).
Proof.
  intros H.
  destruct (test_extension_popup_goto w target o H) as (sw & tl & ext & Hw & Hn & Ht).
  exists sw, tl, ext. repeat (split; [assumption|]).
  intros host path Hu Hf Hp.
  pose proof (split_extension_host host path Hf Hp) as Hhost.
  rewrite <- Hu, Hn in Hhost. congruence.
Qed.

Lemma test_extension_popup_target_witness :
  exists service_worker others extension_id,
    service_workers (browser Examples.good_world) = service_worker :: others /\
    nth_error (split "/" (url service_worker)) 2 = Some extension_id /\
    "chrome-extension://abcdefghijklmnop/popup.html" =
      "chrome-extension://" ++ extension_id ++ "/popup.html" /\
    (forall host path,
        url service_worker = "chrome-extension://" ++ host ++ path ->
        free_of "/" host = true ->
        path = "" \/ (exists rest, path = String "/" rest) ->
        extension_id = host).
Proof.
  apply (test_extension_popup_target Examples.good_world
           "chrome-extension://abcdefghijklmnop/popup.html" Returned).
  cbn. tauto.
Defined.

(** ** Failures *)

(** Every run stops at the first call that raises. *)
Lemma run_halts_at_failure (sc : Script) (w : World) :
  halts_at_failure (trace (snd (run (script_function sc w)))).
Proof.
  destruct sc; run_script; repeat constructor.
Qed.

(** In such a trace everything recorded before a call of the body has
    returned. *)
Lemma halts_at_failure_before (t : list Event) :
  halts_at_failure t ->
  forall k c o,
    nth_error t k = Some (c, o) ->
    c <> SyncPlaywrightExit ->
    Forall returned (firstn k t).
Proof.
  induction 1 as [|c0 t Ht IH|c0 e|c0 e]; intros k c o Hk Hc.
  - destruct k; discriminate.
  - destruct k as [|k]; cbn in *; [constructor|].
    constructor; [reflexivity|]. eapply IH; eassumption.
  - destruct k as [|k]; cbn in *; [constructor|].
    destruct k; discriminate.
  - destruct k as [|[|k]]; cbn in *; [constructor| |destruct k; discriminate].
    injection Hk as <- _. congruence.
Qed.

(** The module's top level adds nothing to a run that raised. *)
Lemma script_main_result (sc : Script) (w : World) (e : exn) :
  fst (run (script_function sc w)) = Raise e ->
  run (script_main sc w) = (Raise e, snd (run (script_function sc w))).
Proof.
  destruct sc; cbn [script_main script_function]; [|now destruct (run _) as [r s]; cbn; intros ->].
  unfold verify_extension_main, bind, run.
  destruct (test_extension_popup w init) as [[[]|e'] s]; cbn; [discriminate|].
  now intros [= ->].
Qed.

(** C3.  When a call of either script raises (an element is not found, an
    assertion does not hold, a wait times out, or the library fails
    otherwise), that exception is the result of the script function and of
    the module run as a script, the exit status is not zero, the success
    message of verify_extension.py is not printed, and the trace shows no
    call after the failing one but the exit of the [with] block: nothing is
    caught or tried again. *)
Theorem failure_propagates (sc : Script) (w : World) (c : Call) (e : exn) :
  In (c, Raised e) (trace (snd (run (script_function sc w)))) ->
  fst (run (script_function sc w)) = Raise e /\
  fst (run (script_main sc w)) = Raise e /\
  exit_status (fst (run (script_main sc w))) <> 0 /\
  ~ In "Verification script executed successfully."
       (stdout (snd (run (script_main sc w)))) /\
  halts_at_failure (trace (snd (run (script_function sc w)))).
Proof.
  intros H.
  assert (Hr : fst (run (script_function sc w)) = Raise e).
  { destruct sc; run_script; cbn in H;
      repeat (destruct H as [H|H]; try discriminate); try contradiction;
      congruence. }
  pose proof (script_main_result sc w e Hr) as Hm.
  rewrite Hm. cbn [fst snd exit_status].
  repeat split; auto using run_halts_at_failure.
  clear. destruct sc; run_script; cbn; intuition discriminate.
Qed.

Lemma failure_propagates_witness :
  fst (run (script_main VerifyExtension Examples.other_heading_world)) =
    Raise AssertionError /\
  exit_status (fst (run (script_main VerifyExtension Examples.other_heading_world))) <> 0.
Proof.
  pose proof (failure_propagates VerifyExtension Examples.other_heading_world
                (ExpectToHaveText "h2" "Click Recorder") AssertionError) as H.
  destruct H as (_ & Hm & Hs & _).
  - cbn. tauto.
  - split; [exact Hm | exact Hs].
Defined.

(** ** Teardown *)

(** C4 as stated fails.  On the popup with another heading the session is
    acquired, the first assertion raises, and neither [context.close] nor
    [browser.close] is among the calls of the run. *)
Lemma teardown_skipped_after_failure :
  In (LaunchPersistentContext "" true "chromium"
        [ "--disable-extensions-except=/work"; "--load-extension=/work" ],
      Returned)
     (trace (snd (run (test_extension_popup Examples.other_heading_world)))) /\
  fst (run (test_extension_popup Examples.other_heading_world)) =
    Raise AssertionError /\
  existsb is_teardown
    (calls (trace (snd (run (test_extension_popup Examples.other_heading_world)))))
    = false.
Proof.
  cbn. intuition.
Qed.

(** C4, amended.  A run of either script that completes without raising has
    executed the explicit teardown call once, after every other call of the
    body and before the [with] block exits.  On a run that raises, the
    teardown call is in the trace only if it is itself the call that
    raised: after a failure of an earlier step it is not executed.  The exit
    of the [with] block ends every run that entered the block. *)
Theorem teardown_on_completion (sc : Script) (w : World)
    (r : Result unit) (s : State) :
  run (script_function sc w) = (r, s) ->
  match r with
  | Ok _ =>
      exists body,
        trace s = (body ++ [(teardown sc, Returned);
                            (SyncPlaywrightExit, Returned)])%list /\
        existsb is_teardown (calls body) = false
  | Raise e =>
      forall c o, In (c, o) (trace s) -> is_teardown c = true ->
                  c = teardown sc /\ o = Raised e
  end /\
  (In (SyncPlaywrightEnter, Returned) (trace s) ->
   last (trace s) (SyncPlaywrightEnter, Returned) = (SyncPlaywrightExit, Returned)).
Proof.
  intros H.
  assert (Hr : r = fst (run (script_function sc w))) by now rewrite H.
  assert (Hs : s = snd (run (script_function sc w))) by now rewrite H.
  subst r s. clear H.
  destruct sc; run_script;
    (split; [|first [intros _; reflexivity | cbn; intuition discriminate]]).
  all: try (intros c o Hin Hc; cbn in Hin;
            repeat (destruct Hin as [Hin|Hin];
                    [injection Hin as <- <-; try discriminate Hc|]);
            try contradiction; split; reflexivity).
  all: match goal with
       | |- exists body, ?t = _ /\ _ =>
           exists (removelast (removelast t)); split; reflexivity
       end.
Qed.

Lemma teardown_on_completion_witness :
  exists body,
    trace (snd (run (verify_popup Examples.good_world))) =
      (body ++ [(BrowserClose, Returned); (SyncPlaywrightExit, Returned)])%list /\
    existsb is_teardown (calls body) = false.
Proof.
  exact (proj1 (teardown_on_completion VerificationPopupUpdated
                  Examples.good_world (Ok tt)
                  (snd (run (verify_popup Examples.good_world)))
                  eq_refl)).
Defined.

(** ** What [verify_popup] looks at *)

(** C5 as stated fails.  On a page whose dropdown carries a text of no
    meaning [verify_popup] completes, and no call of the run has looked at
    the text of any element. *)
Lemma verify_popup_accepts_any_label :
  query "#loggingLevel" Examples.mislabelled_dom =
    [mkElement "select" (Some "loggingLevel") "???" true] /\
  fst (run (verify_popup Examples.mislabelled_world)) = Ok tt /\
  existsb is_text_check
    (calls (trace (snd (run (verify_popup Examples.mislabelled_world))))) = false.
Proof.
  repeat split.
Qed.

(** A run of [verify_popup] is the same whatever the texts of the page. *)
Lemma verify_popup_relabel (f : Element -> string) (w : World) :
  fst (run (verify_popup (relabel_world f w))) = fst (run (verify_popup w)) /\
  trace (snd (run (verify_popup (relabel_world f w)))) =
    trace (snd (run (verify_popup w))).
Proof.
  unfold_script.
  cbn [relabel_world relabel_browser browser cwd cwd_exists stdout_takes
       playwright_starts browser_launches new_page_ok render screenshot_ok
       close_ok].
  simpl_state.
  destruct (playwright_starts (browser w)); [|split; reflexivity].
  destruct (browser_launches (browser w)); [|split; reflexivity].
  destruct (new_page_ok (browser w)); [|split; reflexivity].
  simpl_state.
  destruct (cwd_exists w); [|split; reflexivity].
  destruct (stdout_takes w _); [split; reflexivity|].
  simpl_state.
  destruct (render (browser w) _) as [d|]; cbn [option_map]; simpl_state;
    [|split; reflexivity].
  rewrite !query_relabel.
  destruct (query "#loggingLevel" d) as [|lvl ?]; cbn [map]; simpl_state;
    [split; reflexivity|].
  cbn [relabel_element visible].
  destruct (visible lvl); simpl_state; [|split; reflexivity].
  rewrite !query_relabel.
  destruct (query "#loggingDescription" d) as [|desc ?]; cbn [map]; simpl_state;
    [split; reflexivity|].
  cbn [relabel_element visible].
  destruct (visible desc); simpl_state; [|split; reflexivity].
  destruct (screenshot_ok (browser w)); simpl_state; [|split; reflexivity].
  destruct (stdout_takes w _); [split; reflexivity|].
  destruct (close_ok (browser w)); split; reflexivity.
Qed.

(** The page of a completed run of [verify_popup]: the local popup.html,
    with the first dropdown and the first description element visible. *)
Lemma verify_popup_completed (w : World) (s : State) :
  run (verify_popup w) = (Ok tt, s) ->
  render (browser w) ("file://" ++ cwd w ++ "/popup.html") = Some (page_dom s) /\
  (exists lvl others,
      query "#loggingLevel" (page_dom s) = lvl :: others /\
      In lvl (page_dom s) /\ elem_id lvl = Some "loggingLevel" /\
      visible lvl = true) /\
  (exists desc others,
      query "#loggingDescription" (page_dom s) = desc :: others /\
      In desc (page_dom s) /\ elem_id desc = Some "loggingDescription" /\
      visible desc = true) /\
  trace s =
    [ (SyncPlaywrightEnter, Returned);
      (Launch true, Returned);
      (NewPage, Returned);
      (Goto ("file://" ++ cwd w ++ "/popup.html"), Returned);
      (WaitForSelector "#loggingLevel", Returned);
      (WaitForSelector "#loggingDescription", Returned);
      (Screenshot "verification_popup_updated.png", Returned);
      (BrowserClose, Returned);
      (SyncPlaywrightExit, Returned) ].
Proof.
  intros H. run_script; try discriminate.
  injection H as <-. simpl_state.
  match goal with
  | El : query "#loggingLevel" ?d = ?lvl :: ?ls,
    Ed : query "#loggingDescription" ?d = ?desc :: ?ds |- _ =>
      assert (Hl : In lvl (query "#loggingLevel" d)) by (rewrite El; now left);
      assert (Hd : In desc (query "#loggingDescription" d)) by (rewrite Ed; now left);
      apply query_hit in Hl as [Hl Hlm]; apply query_hit in Hd as [Hd Hdm];
      apply matches_id in Hlm; apply matches_id in Hdm;
      split; [auto|];
      split; [exists lvl, ls; auto|];
      split; [exists desc, ds; auto|reflexivity]
  end.
Qed.

(** C5, amended.  The two scripts together establish that the heading and
    the start button are present with their texts ([test_extension_popup])
    and that the dropdown with id [loggingLevel] is present and visible
    ([verify_popup]).  A run of [verify_popup] that completes has looked at
    the page through its two waits only, and it completes with the same
    calls whatever the texts of the elements are: the label of the dropdown
    is not checked. *)
Theorem popup_checks_together (f : Element -> string) (w1 w2 : World)
    (s1 s2 : State) :
  run (test_extension_popup w1) = (Ok tt, s1) ->
  run (verify_popup w2) = (Ok tt, s2) ->
  (exists h, query "h2" (page_dom s1) = [h] /\ text h = "Click Recorder") /\
  (exists b, query "#startBtn" (page_dom s1) = [b] /\
             visible b = true /\ text b = "Start Recording") /\
  (exists lvl others,
      query "#loggingLevel" (page_dom s2) = lvl :: others /\
      elem_id lvl = Some "loggingLevel" /\ visible lvl = true) /\
  filter is_inspection (calls (trace s2)) =
    [ WaitForSelector "#loggingLevel"; WaitForSelector "#loggingDescription" ] /\
  fst (run (verify_popup (relabel_world f w2))) = Ok tt /\
  trace (snd (run (verify_popup (relabel_world f w2)))) = trace s2.
Proof.
  intros H1 H2.
  destruct (test_extension_popup_completed w1 s1 H1)
    as (_ & (h & Hq & _ & Ht) & (b & Hbq & _ & Hbv & Hbt)).
  destruct (verify_popup_completed w2 s2 H2)
    as (_ & (lvl & ls & Hlq & _ & Hli & Hlv) & _ & Htrace).
  destruct (verify_popup_relabel f w2) as [Hfst Htr].
  rewrite H2 in Hfst, Htr. cbn [fst snd] in Hfst, Htr.
  split; [exists h; auto|].
  split; [exists b; auto|].
  split; [exists lvl, ls; auto|].
  split; [rewrite Htrace; reflexivity|].
  split; assumption.
Qed.

Lemma popup_checks_together_witness :
  fst (run (verify_popup (relabel_world (fun _ => "") Examples.good_world))) = Ok tt /\
  filter is_inspection (calls (trace (snd (run (verify_popup Examples.good_world))))) =
    [ WaitForSelector "#loggingLevel"; WaitForSelector "#loggingDescription" ].
Proof.
  pose proof (popup_checks_together (fun _ => "")
                Examples.good_world Examples.good_world
                (snd (run (test_extension_popup Examples.good_world)))
                (snd (run (verify_popup Examples.good_world)))
                eq_refl eq_refl) as H.
  destruct H as (_ & _ & _ & Hi & Hr & _).
  split; [exact Hr | exact Hi].
Defined.

(** C6.  When [verify_popup] completes without raising, the page it loaded
    (popup.html of the working directory) contains an element with id
    [loggingLevel] and an element with id [loggingDescription], and the
    waits for both selectors have returned before the screenshot is
    taken. *)
Theorem verify_popup_waits (w : World) (s : State) :
  run (verify_popup w) = (Ok tt, s) ->
  render (browser w) ("file://" ++ cwd w ++ "/popup.html") = Some (page_dom s) /\
  (exists lvl, In lvl (page_dom s) /\ elem_id lvl = Some "loggingLevel") /\
  (exists desc, In desc (page_dom s) /\
                elem_id desc = Some "loggingDescription") /\
  precedes (trace s)
    (WaitForSelector "#loggingLevel", Returned)
    (Screenshot "verification_popup_updated.png", Returned) /\
  precedes (trace s)
    (WaitForSelector "#loggingDescription", Returned)
    (Screenshot "verification_popup_updated.png", Returned) /\
  filter (fun c => match c with Screenshot _ => true | _ => false end)
         (calls (trace s)) = [Screenshot "verification_popup_updated.png"].
Proof.
  intros H.
  destruct (verify_popup_completed w s H)
    as (Hpage & (lvl & _ & _ & Hl & Hli & _) & (desc & _ & _ & Hd & Hdi & _) & Htrace).
  split; [exact Hpage|].
  split; [exists lvl; auto|].
  split; [exists desc; auto|].
  rewrite Htrace.
  split; [exists 4, 6; repeat split; lia|].
  split; [exists 5, 6; repeat split; lia|reflexivity].
Qed.

Lemma verify_popup_waits_witness :
  precedes (trace (snd (run (verify_popup Examples.good_world))))
    (WaitForSelector "#loggingDescription", Returned)
    (Screenshot "verification_popup_updated.png", Returned) /\
  fst (run (verify_popup Examples.no_description_world)) = Raise TimeoutError.
Proof.
  split; [|reflexivity].
  apply (verify_popup_waits Examples.good_world). reflexivity.
Defined.

(** ** The screenshot and the files of a run *)

(** C7 as stated fails.  In a run of [test_extension_popup] in which all
    goes well the screenshot is not the only thing put on the file system:
    the launch with the empty [user_data_dir] has had a temporary directory
    made for the profile. *)
Lemma screenshot_is_not_only_write :
  In (LaunchPersistentContext "" true "chromium"
        [ "--disable-extensions-except=/work"; "--load-extension=/work" ],
      Returned)
     (trace (snd (run (script_main VerifyExtension Examples.good_world)))) /\
  written (snd (run (script_main VerifyExtension Examples.good_world))) =
    ["jules-scratch/verification/popup.png"] /\
  temp_dirs (snd (run (script_main VerifyExtension Examples.good_world))) = 1.
Proof.
  cbn. intuition.
Qed.

(** C7, amended.  The one file either script has written at a path it
    names is its screenshot, at a path that is a literal of the source:
    "jules-scratch/verification/popup.png" for verify_extension.py and
    "verification_popup_updated.png" for verification_popup_updated.py.
    Whatever the world, every [screenshot] call names that path, the named
    files written by a run are none or that one, they are the screenshots
    of the [screenshot] calls that have returned, and a run that completes
    has written its screenshot.  Beside it a run leaves at most one
    temporary profile directory, made when the launch of the browser has
    returned. *)
Theorem screenshot_is_only_write (sc : Script) (w : World) :
  screenshot_path VerifyExtension = "jules-scratch/verification/popup.png" /\
  screenshot_path VerificationPopupUpdated = "verification_popup_updated.png" /\
  (forall p o, In (Screenshot p, o) (trace (snd (run (script_main sc w)))) ->
               p = screenshot_path sc) /\
  (written (snd (run (script_main sc w))) = [] \/
   written (snd (run (script_main sc w))) = [screenshot_path sc]) /\
  written (snd (run (script_main sc w))) =
    screenshots_taken (trace (snd (run (script_main sc w)))) /\
  (fst (run (script_main sc w)) = Ok tt ->
   written (snd (run (script_main sc w))) = [screenshot_path sc]) /\
  temp_dirs (snd (run (script_main sc w))) <= 1 /\
  temp_dirs (snd (run (script_main sc w))) =
    launches_done (trace (snd (run (script_main sc w)))).
Proof.
  split; [reflexivity|]. split; [reflexivity|].
  destruct sc; run_script; cbn [screenshot_path].
  all: split; [intros p o H; cbn in H;
                repeat (destruct H as [H|H]; try discriminate);
                try contradiction; injection H as <- _; reflexivity|].
  all: split; [auto|].
  all: split; [reflexivity|].
  all: split; [intros H; first [reflexivity | discriminate H]|].
  all: split; [lia|reflexivity].
Qed.

Lemma screenshot_is_only_write_witness :
  written (snd (run (script_main VerifyExtension Examples.good_world))) =
    ["jules-scratch/verification/popup.png"] /\
  written (snd (run (script_main VerificationPopupUpdated Examples.other_process_world))) =
    ["verification_popup_updated.png"].
Proof.
  split.
  - apply (screenshot_is_only_write VerifyExtension Examples.good_world).
    reflexivity.
  - apply (screenshot_is_only_write VerificationPopupUpdated
             Examples.other_process_world).
    reflexivity.
Defined.

(** ** The order of a run *)

(** C8 as stated fails.  The six steps are not taken one after the other:
    in the run of [test_extension_popup] in which all goes well the start
    button is located (step 2) after the assertion on the heading
    (step 3). *)
Lemma locate_after_assert :
  map step_of
    (calls (trace (snd (run (test_extension_popup Examples.good_world))))) =
    [0; 0; 0; 0; 1; 2; 3; 2; 3; 3; 4; 5; 5] /\
  precedes (trace (snd (run (test_extension_popup Examples.good_world))))
    (ExpectToHaveText "h2" "Click Recorder", Returned)
    (PageLocator "#startBtn", Returned) /\
  ~ Sorted le
      (map step_of
         (calls (trace (snd (run (test_extension_popup Examples.good_world)))))).
Proof.
  split; [reflexivity|]. split.
  - exists 6, 7. repeat split. lia.
  - cbn. intros H.
    do 6 (apply Sorted_inv in H; destruct H as [H _]).
    apply Sorted_inv in H. destruct H as [_ H].
    apply HdRel_inv in H. lia.
Qed.

(** C8, amended.  The calls of every run of either script are, in the
    order of the source, an initial part of the script's fixed sequence of
    calls, closed by the exit of the [with] block once the block has been
    entered; a run that returns has gone through the whole sequence.  The
    phases never go back: start of the session, navigation, the elements
    one after the other (each located or waited for, and asserted on only
    after it has been located), screenshot, teardown.  When the screenshot
    call is reached, every call before it has returned. *)
Theorem runs_in_fixed_order (sc : Script) (w : World) :
  (fst (run (script_function sc w)) = Ok tt ->
   exists target,
     calls (trace (snd (run (script_function sc w)))) =
       (plan sc w target ++ [SyncPlaywrightExit])%list) /\
  (calls (trace (snd (run (script_function sc w)))) = [] \/
   calls (trace (snd (run (script_function sc w)))) = [SyncPlaywrightEnter] \/
   exists target n,
     calls (trace (snd (run (script_function sc w)))) =
       (firstn n (plan sc w target) ++ [SyncPlaywrightExit])%list) /\
  Sorted le (map phase_of (calls (trace (snd (run (script_function sc w)))))) /\
  (forall c o sel,
      In (c, o) (trace (snd (run (script_function sc w)))) ->
      is_assertion c = true -> selector_of c = Some sel ->
      precedes (trace (snd (run (script_function sc w))))
               (PageLocator sel, Returned) (c, o)) /\
  (forall k p o,
      nth_error (trace (snd (run (script_function sc w)))) k =
        Some (Screenshot p, o) ->
      Forall returned (firstn k (trace (snd (run (script_function sc w)))))).
Proof.
  split; [|split; [|split; [|split]]].
  - intros H.
    destruct sc; run_script; try discriminate H; cbn [calls map fst plan];
      match goal with
      | |- context [Goto ?u] => exists u
      end; reflexivity.
  - destruct sc; run_script; cbn [calls map fst plan];
      first [ left; reflexivity
            | right; left; reflexivity
            | right; right;
              match goal with
              | |- context [Goto ?u] => exists u
              | _ => exists ""
              end; find_length 0 ].
  - destruct sc; run_script; cbn;
      repeat first [ apply Sorted_nil | apply Sorted_cons
                   | apply HdRel_nil | apply HdRel_cons; lia ].
  - intros c o sel Hin Ha Hs.
    destruct sc; run_script; cbn in Hin;
      repeat (destruct Hin as [Hin|Hin];
              [injection Hin as <- <-; try discriminate Ha|]);
      try contradiction.
    all: injection Hs as <-.
    all: first [ exists 5, 6; repeat split; lia
               | exists 7, 8; repeat split; lia
               | exists 7, 9; repeat split; lia ].
  - intros k p o Hk.
    eapply halts_at_failure_before;
      [apply run_halts_at_failure | exact Hk | discriminate].
Qed.

Lemma runs_in_fixed_order_witness :
  Forall returned
    (firstn 10 (trace (snd (run (test_extension_popup Examples.good_world))))) /\
  precedes (trace (snd (run (test_extension_popup Examples.good_world))))
    (PageLocator "#startBtn", Returned)
    (ExpectToHaveText "#startBtn" "Start Recording", Returned) /\
  length (calls (trace (snd (run (verify_popup Examples.good_world))))) = 9.
Proof.
  pose proof (runs_in_fixed_order VerifyExtension Examples.good_world)
    as (_ & _ & _ & Hassert & Hshot).
  pose proof (runs_in_fixed_order VerificationPopupUpdated Examples.good_world)
    as (Hwhole & _).
  split; [|split].
  - apply (Hshot 10 "jules-scratch/verification/popup.png" Returned).
    reflexivity.
  - apply Hassert; [cbn; tauto | reflexivity | reflexivity].
  - destruct (Hwhole eq_refl) as [target Hcalls].
    cbn [script_function] in Hcalls. rewrite Hcalls. reflexivity.
Defined.

(** ** What the calls depend on *)

(** C9 as stated fails.  Two runs of verify_extension.py from the same
    working directory, with the same files, arguments and environment,
    issue different calls when the browser answers differently: in one the
    service worker is registered when the script reads the list, in the
    other it is not yet. *)
Lemma same_directory_different_calls :
  cwd Examples.good_world = cwd Examples.late_worker_world /\
  files Examples.good_world = files Examples.late_worker_world /\
  argv Examples.good_world = argv Examples.late_worker_world /\
  environ Examples.good_world = environ Examples.late_worker_world /\
  calls (trace (snd (run (script_main VerifyExtension Examples.good_world)))) <>
  calls (trace (snd (run (script_main VerifyExtension Examples.late_worker_world)))).
Proof.
  repeat (split; [reflexivity|]). cbn. discriminate.
Qed.

(** Where [verify_popup] navigates to. *)
Lemma verify_popup_goto (w : World) (target : string) (o : Outcome) :
  In (Goto target, o) (trace (snd (run (verify_popup w)))) ->
  target = "file://" ++ cwd w ++ "/popup.html".
Proof.
  intros H. run_script; cbn in H;
    repeat (destruct H as [H|H]; try discriminate); try contradiction;
    injection H as <- _; reflexivity.
Qed.

(** How [test_extension_popup] launches the browser. *)
Lemma test_extension_popup_launch (w : World) (c : Call) (o : Outcome) :
  In (c, o) (trace (snd (run (test_extension_popup w)))) ->
  phase_of c = 0 ->
  c = SyncPlaywrightEnter \/ c = ServiceWorkers \/ c = NewPage \/
  c = LaunchPersistentContext "" true "chromium"
        [ "--disable-extensions-except=" ++ cwd w;
          "--load-extension=" ++ cwd w ].
Proof.
  intros H Hc. run_script; cbn in H;
    repeat (destruct H as [H|H];
            [injection H as <- <-; try discriminate Hc; tauto|]);
    contradiction.
Qed.

(** The path every [screenshot] call of a script names. *)
Lemma screenshot_literal (sc : Script) (w : World) (p : string) (o : Outcome) :
  In (Screenshot p, o) (trace (snd (run (script_function sc w)))) ->
  p = screenshot_path sc.
Proof.
  intros H. destruct sc; run_script; cbn in H;
    repeat (destruct H as [H|H]; try discriminate); try contradiction;
    injection H as <- _; reflexivity.
Qed.

(** C9, amended.  Neither script reads its arguments or the environment
    itself.  Two runs started from the same working directory (there or
    removed in both) in which the library and the browser answer alike and
    stdout takes the printed lines alike end alike, with the same calls,
    the same output and the same file written, whatever the arguments, the
    environment variables and the files are.  The arguments of the launch
    and the address [verify_popup] navigates to are made from the working
    directory; the screenshot paths are literals of the source; the
    address [test_extension_popup] navigates to is made from the address
    of the service worker that the library reports. *)
Theorem runs_agree (sc : Script) (w1 w2 : World) :
  cwd w1 = cwd w2 ->
  cwd_exists w1 = cwd_exists w2 ->
  browser w1 = browser w2 ->
  (forall line, stdout_takes w1 line = stdout_takes w2 line) ->
  run (script_main sc w1) = run (script_main sc w2) /\
  (forall target o,
      In (Goto target, o) (trace (snd (run (verify_popup w1)))) ->
      target = "file://" ++ cwd w1 ++ "/popup.html") /\
  (forall user_data_dir headless channel args o,
      In (LaunchPersistentContext user_data_dir headless channel args, o)
         (trace (snd (run (test_extension_popup w1)))) ->
      args = [ "--disable-extensions-except=" ++ cwd w1;
               "--load-extension=" ++ cwd w1 ]) /\
  (forall p o,
      In (Screenshot p, o) (trace (snd (run (test_extension_popup w1)))) ->
      p = "jules-scratch/verification/popup.png") /\
  (forall p o,
      In (Screenshot p, o) (trace (snd (run (verify_popup w1)))) ->
      p = "verification_popup_updated.png") /\
  (forall target o,
      In (Goto target, o) (trace (snd (run (test_extension_popup w1)))) ->
      exists service_worker others extension_id,
        service_workers (browser w1) = service_worker :: others /\
        nth_error (split "/" (url service_worker)) 2 = Some extension_id /\
        target = "chrome-extension://" ++ extension_id ++ "/popup.html").
Proof.
  intros Hcwd Hexists Hbrowser Hstdout.
  split; [|split; [|split; [|split; [|split]]]].
  - destruct w1 as [d1 a1 e1 f1 b1 x1 t1], w2 as [d2 a2 e2 f2 b2 x2 t2].
    cbn in Hcwd, Hexists, Hbrowser, Hstdout. subst d2 x2 b2.
    destruct sc; unfold_script;
      cbn [cwd cwd_exists browser stdout_takes];
      destruct x1; simpl_state; repeat rewrite <- Hstdout; reflexivity.
  - intros target o. apply verify_popup_goto.
  - intros u h ch args o H.
    destruct (test_extension_popup_launch w1 _ o H eq_refl)
      as [E|[E|[E|E]]]; try discriminate E.
    now injection E.
  - intros p o. apply (screenshot_literal VerifyExtension).
  - intros p o. apply (screenshot_literal VerificationPopupUpdated).
  - intros target o. apply test_extension_popup_goto.
Qed.

Lemma runs_agree_witness :
  argv Examples.good_world <> argv Examples.other_process_world /\
  environ Examples.good_world <> environ Examples.other_process_world /\
  run (script_main VerifyExtension Examples.good_world) =
  run (script_main VerifyExtension Examples.other_process_world).
Proof.
  split; [discriminate|]. split; [discriminate|].
  apply (runs_agree VerifyExtension Examples.good_world
           Examples.other_process_world); reflexivity.
Defined.

(** * Further properties of the scripts *)

(** ** What the scripts print *)

(** Closing the cases of a run whose trace and output are known. *)
Ltac close_case :=
  repeat split; intros;
  repeat match goal with
         | H : False |- _ => contradiction
         | H : _ /\ _ |- _ => destruct H
         | H : _ \/ _ |- _ => destruct H
         | H : exists _, _ |- _ => destruct H
         | H : _ = _ |- _ => discriminate H
         end;
  subst; auto;
  try solve [left; reflexivity | right; reflexivity
            | right; left; reflexivity | right; right; reflexivity];
  try solve [cbn; tauto];
  try solve [cbn in *; congruence];
  try solve [repeat constructor].



(** X2.  The output of [verify_popup] is empty, or its "Loading ..." line
    with the address made from the working directory, or that line
    followed by "Screenshot saved to ...".  The first line is printed
    exactly when the page object exists, the working directory is there
    and stdout takes the line: before the navigation is tried, and also
    when it then fails.  The second is printed exactly when the screenshot
    file has been written and stdout takes the line, also when
    [browser.close()] raises afterwards. *)
Theorem verify_popup_prints (w : World) :
  (stdout (snd (run (verify_popup w))) = [] \/
   stdout (snd (run (verify_popup w))) =
     ["Loading " ++ "file://" ++ cwd w ++ "/popup.html"] \/
   stdout (snd (run (verify_popup w))) =
     ["Loading " ++ "file://" ++ cwd w ++ "/popup.html";
      "Screenshot saved to verification_popup_updated.png"]) /\
  (In ("Loading " ++ "file://" ++ cwd w ++ "/popup.html")
      (stdout (snd (run (verify_popup w)))) <->
   In (NewPage, Returned) (trace (snd (run (verify_popup w)))) /\
   cwd_exists w = true /\
   stdout_takes w ("Loading " ++ "file://" ++ cwd w ++ "/popup.html") = None) /\
  (In "Screenshot saved to verification_popup_updated.png"
      (stdout (snd (run (verify_popup w)))) <->
   written (snd (run (verify_popup w))) = ["verification_popup_updated.png"] /\
   stdout_takes w "Screenshot saved to verification_popup_updated.png" = None).
Proof.
  run_script; cbn; close_case.
Qed.

Lemma verify_popup_prints_witness :
  fst (run (verify_popup Cases.no_page_world)) = Raise PlaywrightError /\
  In "Loading file:///work/popup.html"
     (stdout (snd (run (verify_popup Cases.no_page_world)))) /\
  fst (run (verify_popup Cases.close_fails_world)) = Raise PlaywrightError /\
  In "Screenshot saved to verification_popup_updated.png"
     (stdout (snd (run (verify_popup Cases.close_fails_world)))) /\
  stdout (snd (run (verify_popup Cases.removed_directory_world))) = [].
Proof.
  split; [reflexivity|]. split.
  - apply (verify_popup_prints Cases.no_page_world). cbn. tauto.
  - split; [reflexivity|]. split; [|reflexivity].
    apply (verify_popup_prints Cases.close_fails_world). cbn. tauto.
Defined.

(** ** A failure after the screenshot *)



(** ** The pieces of an address *)

Section Pieces.

Variable sep : ascii.

(** [split] gives one piece more than there are separators. *)
Lemma split_length (s : string) :
  length (split sep s) = S (occurrences sep s).
Proof.
  induction s as [|c s IH]; [reflexivity|].
  cbn [split occurrences]. destruct (Ascii.eqb c sep).
  - cbn. now rewrite IH.
  - destruct (split sep s); [discriminate IH|]. cbn in *. exact IH.
Qed.

(** No piece holds the separator. *)
Lemma split_pieces_free (s : string) :
  Forall (fun piece => free_of sep piece = true) (split sep s).
Proof.
  induction s as [|c s IH]; [repeat constructor|].
  cbn [split]. destruct (Ascii.eqb c sep) eqn:Hc.
  - constructor; [reflexivity|exact IH].
  - destruct (split sep s) as [|piece pieces]; [repeat constructor; cbn; now rewrite Hc|].
    inversion IH as [|? ? Hpiece Hpieces]; subst.
    constructor; [|exact Hpieces]. cbn. now rewrite Hc, Hpiece.
Qed.

End Pieces.

(** X4.  With the session started (the working directory there, the
    library started, the browser launched) and a service worker in the list, line
    26 decides by the slashes of the worker's address: with fewer than two
    the index 2 is out of range, [IndexError] ends the run before any page
    is opened; with two or more the run goes on to open the page, and
    [IndexError] is not its result. *)
Theorem test_extension_popup_needs_two_slashes (w : World) (sw : Worker)
    (others : list Worker) :
  cwd_exists w = true ->
  playwright_starts (browser w) = true ->
  browser_launches (browser w) = true ->
  service_workers (browser w) = sw :: others ->
  (occurrences "/" (url sw) < 2 ->
   fst (run (test_extension_popup w)) = Raise IndexError /\
   calls (trace (snd (run (test_extension_popup w)))) =
     [ SyncPlaywrightEnter;
       LaunchPersistentContext "" true "chromium"
         [ "--disable-extensions-except=" ++ cwd w;
           "--load-extension=" ++ cwd w ];
       ServiceWorkers;
       SyncPlaywrightExit ]) /\
  (2 <= occurrences "/" (url sw) ->
   In NewPage (calls (trace (snd (run (test_extension_popup w))))) /\
   fst (run (test_extension_popup w)) <> Raise IndexError).
Proof.
  intros Hc Hp Hl Hw.
  pose proof (split_length "/" (url sw)) as Hlen.
  unfold_script. rewrite Hc, Hp, Hl, Hw. simpl_state.
  destruct (split "/" (url sw)) as [|a [|b [|c rest]]]; cbn in Hlen;
    simpl_state; (split; intros Hocc; [|try lia]); try lia.
  all: try solve [split; reflexivity].
  repeat step; cbn; (split; [tauto|discriminate]).
Qed.

Lemma test_extension_popup_needs_two_slashes_witness :
  fst (run (test_extension_popup Cases.short_url_world)) = Raise IndexError /\
  In NewPage (calls (trace (snd (run (test_extension_popup Examples.good_world))))).
Proof.
  split.
  - destruct (test_extension_popup_needs_two_slashes Cases.short_url_world
                (mkWorker "about:blank/x") [] eq_refl eq_refl eq_refl eq_refl)
      as [Hshort _].
    apply Hshort. cbn. lia.
  - destruct (test_extension_popup_needs_two_slashes Examples.good_world
                Examples.the_worker [] eq_refl eq_refl eq_refl eq_refl)
      as [_ Hlong].
    apply Hlong. cbn. lia.
Defined.

(** X5.  The address [test_extension_popup] navigates to has exactly the
    four pieces "chrome-extension:", the empty piece, the extension id and
    "popup.html": the id, being a piece of the worker's address, holds no
    slash, so the popup is asked from the host named by index 2 of the
    worker's address, whatever the rest of that address is. *)
Theorem test_extension_popup_target_pieces (w : World) (target : string)
    (o : Outcome) :
  In (Goto target, o) (trace (snd (run (test_extension_popup w)))) ->
  exists service_worker others extension_id,
    service_workers (browser w) = service_worker :: others /\
    nth_error (split "/" (url service_worker)) 2 = Some extension_id /\
    free_of "/" extension_id = true /\
    split "/" target = ["chrome-extension:"; ""; extension_id; "popup.html"].
Proof.
  intros H.
  destruct (test_extension_popup_goto w target o H)
    as (sw & others & id & Hw & Hid & ->).
  assert (Hfree : free_of "/" id = true).
  { pose proof (split_pieces_free "/" (url sw)) as Hall.
    rewrite Forall_forall in Hall. apply Hall.
    eapply nth_error_In. exact Hid. }
  exists sw, others, id. repeat (split; [assumption|]).
  cbn. rewrite (split_cut "/" id "popup.html" Hfree). reflexivity.
Qed.

Lemma test_extension_popup_target_pieces_witness :
  exists service_worker others extension_id,
    service_workers (browser Examples.good_world) = service_worker :: others /\
    nth_error (split "/" (url service_worker)) 2 = Some extension_id /\
    free_of "/" extension_id = true /\
    split "/" "chrome-extension://abcdefghijklmnop/popup.html" =
      ["chrome-extension:"; ""; extension_id; "popup.html"].
Proof.
  apply (test_extension_popup_target_pieces Examples.good_world
           "chrome-extension://abcdefghijklmnop/popup.html" Returned).
  cbn. tauto.
Defined.

(** ** What the heading check does not look at *)

Lemma matches_reveal (f : Element -> bool) (sel : string) (e : Element) :
  matches sel (reveal_element f e) = matches sel e.
Proof.
  unfold reveal_element. destruct (matches "#startBtn" e); reflexivity.
Qed.

Lemma text_reveal (f : Element -> bool) (e : Element) :
  text (reveal_element f e) = text e.
Proof.
  unfold reveal_element. destruct (matches "#startBtn" e); reflexivity.
Qed.

Lemma query_reveal (f : Element -> bool) (sel : string) (d : Dom) :
  query sel (map (reveal_element f) d) = map (reveal_element f) (query sel d).
Proof.
  unfold query. induction d as [|e d IH]; simpl; [reflexivity|].
  rewrite matches_reveal. destruct (matches sel e); simpl; congruence.
Qed.

(** The start button is left as it is. *)
Lemma reveal_start_button (f : Element -> bool) (d : Dom) (b : Element)
    (others : list Element) :
  query "#startBtn" d = b :: others -> reveal_element f b = b.
Proof.
  intros H.
  assert (Hb : In b (query "#startBtn" d)) by (rewrite H; now left).
  apply query_hit in Hb as [_ Hb].
  unfold reveal_element. now rewrite Hb.
Qed.

Ltac same_run := simpl_state; try solve [repeat split; reflexivity].

(** X6.  [test_extension_popup] does not look at whether the heading is
    visible: the only visibility it asserts is that of the start button.
    Whatever is made visible or hidden on the popup, the start button
    apart, the run has the same result, the same calls and the same file
    written. *)
Theorem test_extension_popup_ignores_heading_visibility
    (f : Element -> bool) (w : World) :
  fst (run (test_extension_popup (reveal_world f w))) =
    fst (run (test_extension_popup w)) /\
  trace (snd (run (test_extension_popup (reveal_world f w)))) =
    trace (snd (run (test_extension_popup w))) /\
  written (snd (run (test_extension_popup (reveal_world f w)))) =
    written (snd (run (test_extension_popup w))).
Proof.
  unfold_script.
  cbn [reveal_world reveal_browser browser cwd cwd_exists stdout_takes
       playwright_starts browser_launches service_workers
       serviceworker_event new_page_ok render screenshot_ok close_ok].
  same_run.
  destruct (cwd_exists w); same_run.
  destruct (playwright_starts (browser w)); same_run.
  destruct (browser_launches (browser w)); same_run.
  destruct (service_workers (browser w)) as [|sw others]; same_run.
  destruct (split "/" (url sw)) as [|p0 [|p1 [|extension_id ps]]]; same_run.
  destruct (new_page_ok (browser w)); same_run.
  destruct (render (browser w) _) as [d|]; cbn [option_map]; same_run.
  rewrite !query_reveal.
  destruct (query "h2" d) as [|h [|h' hs]]; cbn [map]; same_run.
  rewrite text_reveal.
  destruct (String.eqb (text h) "Click Recorder"); same_run.
  rewrite !query_reveal.
  destruct (query "#startBtn" d) as [|b [|b' bs]] eqn:Hb; cbn [map]; same_run.
  rewrite (reveal_start_button f d b [] Hb).
  destruct (visible b); same_run.
  rewrite !query_reveal, !Hb. cbn [map]. rewrite text_reveal.
  destruct (String.eqb (text b) "Start Recording"); same_run.
  destruct (screenshot_ok (browser w)); same_run.
  destruct (close_ok (browser w)); same_run.
Qed.

(** ** Failures that are not failed calls *)


